(** * Roster conversion script [scripts/convert_csv.py]

    A shallow embedding of the row transformer of the gymnastics club
    manager's CSV conversion script, and the properties of its name
    resolution, level normalisation, fee lookup, status derivation and
    row admission.

    Python values that reach the script are either [None] or a [str].
    A [str] is modelled as a Rocq [string] whose characters are the code
    points U+0000..U+00FF (one [ascii] per code point); the character
    classes of [str.isspace] and [str.lower] are the ones CPython uses on
    that range. *)

From Stdlib Require Import ZArith NArith Ascii String List Bool Lia.
From Stdlib Require Import Numbers.DecimalString.
From stdpp Require Import base gmap strings list fin_maps.

Local Open Scope Z_scope.

(** ** Python strings *)

Module Str.

(** [str.isspace] on one code point: TAB..CR, FS..US, SPACE, NEL, NBSP. *)
Definition isspace (c : ascii) : bool :=
  let n := N_of_ascii c in
  ((9 <=? n) && (n <=? 13) || (28 <=? n) && (n <=? 32)
   || (n =? 133) || (n =? 160))%N.

(** [str.lower] on one code point: A..Z and the Latin-1 capitals
    U+00C0..U+00DE (the multiplication sign U+00D7 apart) move up by 32. *)
Definition lower_char (c : ascii) : ascii :=
  let n := N_of_ascii c in
  if ((65 <=? n) && (n <=? 90)
      || (192 <=? n) && (n <=? 222) && negb (n =? 215))%N
  then ascii_of_N (n + 32) else c.

(** The character class [[a-zA-Z]] of the [re] module. *)
Definition is_ascii_letter (c : ascii) : bool :=
  let n := N_of_ascii c in
  ((65 <=? n) && (n <=? 90) || (97 <=? n) && (n <=? 122))%N.

Fixpoint lower (s : string) : string :=
  match s with
  | EmptyString => EmptyString
  | String c s' => String (lower_char c) (lower s')
  end.

Fixpoint lstrip (s : string) : string :=
  match s with
  | EmptyString => EmptyString
  | String c s' => if isspace c then lstrip s' else s
  end.

Fixpoint rstrip (s : string) : string :=
  match s with
  | EmptyString => EmptyString
  | String c s' =>
      match rstrip s' with
      | EmptyString => if isspace c then EmptyString else String c EmptyString
      | r => String c r
      end
  end.

(** [s.strip()] *)
Definition strip (s : string) : string := rstrip (lstrip s).

(** [s.split()]: the maximal runs of non-space characters, in order.
    [cur] is the token being read, if one has been started. *)
Fixpoint split_go (cur : option string) (s : string) : list string :=
  match s with
  | EmptyString => option_list cur
  | String c s' =>
      if isspace c then option_list cur ++ split_go None s'
      else split_go (Some (from_option (fun t => t +:+ String c EmptyString)
                                       (String c EmptyString) cur)) s'
  end.

Definition split (s : string) : list string := split_go None s.

(** [sep.join(parts)] *)
Fixpoint join (sep : string) (parts : list string) : string :=
  match parts with
  | [] => EmptyString
  | [p] => p
  | p :: rest => p +:+ sep +:+ join sep rest
  end.

(** [re.sub(r'[^a-zA-Z]', '', s)] *)
Fixpoint sub_non_letters (s : string) : string :=
  match s with
  | EmptyString => EmptyString
  | String c s' =>
      if is_ascii_letter c then String c (sub_non_letters s')
      else sub_non_letters s'
  end.

(** [x in xs] for a list of strings *)
Definition elem (x : string) (xs : list string) : bool :=
  existsb (String.eqb x) xs.

(** [str(n)] for an [int] *)
Definition of_int (n : Z) : string := NilZero.string_of_int (Z.to_int n).

(** A stripped string does not start with a space. *)
Definition no_lead (s : string) : Prop :=
  match s with
  | EmptyString => True
  | String c _ => isspace c = false
  end.

(** [c in s] for a one-character [c] *)
Fixpoint contains_char (c : ascii) (s : string) : bool :=
  match s with
  | EmptyString => false
  | String c' s' => Ascii.eqb c' c || contains_char c s'
  end.

(** Does the string hold a character of [str.isspace]? *)
Fixpoint has_space (s : string) : bool :=
  match s with
  | EmptyString => false
  | String c s' => isspace c || has_space s'
  end.

(** The letters a..z. *)
Definition is_ascii_lower (c : ascii) : bool :=
  let n := N_of_ascii c in ((97 <=? n) && (n <=? 122))%N.

(** A token: not empty, and free of spaces. *)
Definition token (t : string) : Prop := t <> "" /\ has_space t = false.

Fixpoint all_chars (p : ascii -> bool) (s : string) : bool :=
  match s with
  | EmptyString => true
  | String c s' => p c && all_chars p s'
  end.

End Str.

(** ** Python values, exceptions and results *)

(** The values a [csv.DictReader] row holds, and the script passes around:
    a [str], or [None] (a row shorter than the header leaves its missing
    fields at [None]). *)
Inductive pyval : Type :=
| PyNone
| PyStr (s : string).

Inductive exn : Type :=
| AttributeError   (* a [str] method called on [None] *)
| IndexError       (* a list indexed out of its range *)
| ValueError.      (* [DictWriter] given a key outside its field names *)

Inductive result (A : Type) : Type :=
| Ok (a : A)
| Raise (e : exn).
Arguments Ok {A} a.
Arguments Raise {A} e.

Definition bind {A B : Type} (k : A -> result B) (m : result A) : result B :=
  match m with
  | Ok a => k a
  | Raise e => Raise e
  end.

#[export] Instance result_ret : MRet result := @Ok.
#[export] Instance result_bind : MBind result := @bind.

(** Truth value of a Python value: [None] and [''] are false. *)
Definition truthy (v : pyval) : bool :=
  match v with
  | PyNone => false
  | PyStr s => negb (String.eqb s "")
  end.

(** [v.lower()] and [v.strip()] *)
Definition meth_lower (v : pyval) : result string :=
  match v with
  | PyStr s => Ok (Str.lower s)
  | PyNone => Raise AttributeError
  end.

Definition meth_strip (v : pyval) : result string :=
  match v with
  | PyStr s => Ok (Str.strip s)
  | PyNone => Raise AttributeError
  end.

(** [xs[i]] for a list and a non-negative index *)
Definition index {A : Type} (xs : list A) (i : nat) : result A :=
  match xs !! i with
  | Some x => Ok x
  | None => Raise IndexError
  end.

(** [d.get(key, default)] on a [dict] with [str] keys *)
Definition dict_get {V : Type} (d : gmap string V) (key : string) (dflt : V) : V :=
  default dflt (d !! key).

(** ** The script *)

(** [LEVEL_FEES], lines 12-26 *)
Definition LEVEL_FEES : gmap string Z :=
  list_to_map
    [ ("RR", 250); ("R", 250); ("Pre level 1", 300);
      ("Level 1", 350); ("Level 2", 400); ("Level 3", 450);
      ("Level 4", 500); ("Level 5", 550);
      ("1", 350); ("2", 400); ("3", 450); ("4", 500); ("5", 550) ].

(** [level_map], lines 36-50 *)
Definition level_map_items : list (string * string) :=
  [ ("rr", "RR"); ("r", "R"); ("pre level 1", "Pre level 1");
    ("level 1", "Level 1"); ("level 2", "Level 2"); ("level 3", "Level 3");
    ("level 4", "Level 4"); ("level 5", "Level 5");
    ("1", "Level 1"); ("2", "Level 2"); ("3", "Level 3");
    ("4", "Level 4"); ("5", "Level 5") ].

Definition level_map : gmap string string := list_to_map level_map_items.

(** [normalize_level], lines 28-52. The test of line 30 reads the raw
    argument; the argument is stripped on line 33, after it. *)
Definition normalize_level (level : pyval) : result pyval :=
  no_level ← (if negb (truthy level) then Ok true
               else l ← meth_lower level;
                    Ok (Str.elem l ["inactive"; "none"; ""]));
  if no_level : bool then Ok PyNone
  else
    level ← meth_strip level;
    key ← meth_lower (PyStr level);
    Ok (PyStr (dict_get level_map key level)).

(** [get_monthly_fee], lines 54-58 *)
Definition get_monthly_fee (level : pyval) : Z :=
  if negb (truthy level) then 0
  else match level with
       | PyStr s => dict_get LEVEL_FEES s 350
       | PyNone => 350
       end.

(** [parse_name], lines 60-74 *)
Definition parse_name (full_name first_name last_name : pyval)
  : result (string * string) :=
  if truthy first_name && truthy last_name then
    f ← meth_strip first_name;
    l ← meth_strip last_name;
    Ok (f, l)
  else if truthy full_name then
    s ← meth_strip full_name;
    let parts := Str.split s in
    if (2 <=? length parts)%nat then
      p0 ← index parts 0;
      Ok (p0, Str.join " " (drop 1 parts))
    else if (length parts =? 1)%nat then
      p0 ← index parts 0;
      p0' ← index parts 0;
      Ok (p0, p0')
    else Ok ("Unknown", "Child")
  else Ok ("Unknown", "Child").

(** [generate_parent_email], lines 76-81 *)
Definition generate_parent_email (first_name last_name : string) : string :=
  let first := Str.sub_non_letters (Str.lower first_name) in
  let last := Str.sub_non_letters (Str.lower last_name) in
  first +:+ "." +:+ last +:+ "@placeholder.com".

(** [output_columns], lines 95-100 *)
Definition output_columns : list string :=
  [ "firstName"; "lastName"; "parentFirstName"; "parentLastName";
    "parentEmail"; "parentPhone"; "level"; "monthlyFee"; "status";
    "dateOfBirth"; "gender"; "notes"; "currentBalance"; "sagfFee";
    "equipmentFee"; "competitionFee"; "lastPaymentDate"; "lastPaymentAmount" ].

(** An input record ([csv.DictReader] row) and [row.get(key, '')]. *)
Definition row_get (row : gmap string pyval) (key : string) : pyval :=
  dict_get row key (PyStr "").

(** An output record: the cells in the order they are written, each with
    its column name. *)
Definition record : Type := list (string * string).

Fixpoint field (r : record) (key : string) : option string :=
  match r with
  | [] => None
  | (k, v) :: r' => if String.eqb k key then Some v else field r' key
  end.

(** The status derived on lines 120-124. *)
Definition derive_status (level : pyval) : result string :=
  inactive ← (if negb (truthy level) then Ok true
               else l ← meth_lower level;
                    Ok (Str.elem l ["inactive"; "none"]));
  Ok (if inactive : bool then "INACTIVE" else "ACTIVE").

(** [level or 'R'], line 144 *)
Definition level_or_R (level : pyval) : string :=
  match level with
  | PyStr s => if truthy level then s else "R"
  | PyNone => "R"
  end.

(** The dictionary [output_row] of lines 137-156, in the order of its
    literal, from the local variables it reads. *)
Definition output_row (child_first child_last parent_email : string)
    (level : pyval) (monthly_fee : Z) (status : string) : record :=
  [ ("firstName", child_first);
    ("lastName", child_last);
    ("parentFirstName", "Parent");
    ("parentLastName", child_last);
    ("parentEmail", parent_email);
    ("parentPhone", "");
    ("level", level_or_R level);
    ("monthlyFee", "R" +:+ Str.of_int monthly_fee);
    ("status", status);
    ("dateOfBirth", "");
    ("gender", "");
    ("notes", "Imported from CSV - verify parent contact details");
    ("currentBalance", "R0");
    ("sagfFee", "");
    ("equipmentFee", "");
    ("competitionFee", "");
    ("lastPaymentDate", "");
    ("lastPaymentAmount", "") ].

(** The body of the loop, lines 110-156, up to the dictionary: [None] when
    the row is skipped (lines 127-129), the dictionary otherwise. *)
Definition build_row (row : gmap string pyval) : result (option record) :=
  '(child_first, child_last) ←
      parse_name (row_get row "Full Name") (row_get row "Name")
                 (row_get row "Surname");
  level ← normalize_level (row_get row "Level");
  status ← derive_status level;
  if String.eqb child_first "Unknown" || String.eqb child_last "" then Ok None
  else
    let parent_email := generate_parent_email child_first child_last in
    let monthly_fee := if truthy level then get_monthly_fee level else 0 in
    Ok (Some (output_row child_first child_last parent_email level
                         monthly_fee status)).

(** [csv.DictWriter.writerow]: a key outside the field names raises, a
    missing one is written as the empty string; the cells follow the order
    of the field names. *)
Definition writerow (fieldnames : list string) (rowdict : record)
  : result record :=
  if forallb (fun kv => Str.elem (fst kv) fieldnames) rowdict then
    Ok (map (fun k => (k, default "" (field rowdict k))) fieldnames)
  else Raise ValueError.

(** The state of the loop of lines 109-159: the records written so far and
    the two counters of lines 102-103. *)
Record conv_state : Type := ConvState {
  outfile : list record;
  rows_converted : nat;
  rows_skipped : nat
}.

Definition conv_init : conv_state :=
  {| outfile := []; rows_converted := 0; rows_skipped := 0 |}.

(** One iteration of the loop. *)
Definition loop_body (st : conv_state) (row : gmap string pyval)
  : result conv_state :=
  built ← build_row row;
  match built with
  | None =>
      Ok {| outfile := outfile st;
            rows_converted := rows_converted st;
            rows_skipped := S (rows_skipped st) |}
  | Some output_row =>
      written ← writerow output_columns output_row;
      Ok {| outfile := outfile st ++ [written];
            rows_converted := S (rows_converted st);
            rows_skipped := rows_skipped st |}
  end.

Fixpoint for_rows (st : conv_state) (reader : list (gmap string pyval))
  : result conv_state :=
  match reader with
  | [] => Ok st
  | row :: rest => st' ← loop_body st row; for_rows st' rest
  end.

(** [convert_csv], lines 83-159, on the rows the reader yields. *)
Definition convert_csv (reader : list (gmap string pyval)) : result conv_state :=
  for_rows conv_init reader.

(** A row is accepted when the loop body writes a record for it. *)
Definition accepted (row : gmap string pyval) (r : record) : Prop :=
  exists output_row,
    build_row row = Ok (Some output_row) /\
    writerow output_columns output_row = Ok r.

Definition rejected (row : gmap string pyval) : Prop :=
  build_row row = Ok None.

(** The record the loop body writes for a row, if it writes one. *)
Definition written_record (row : gmap string pyval) : option record :=
  match build_row row with
  | Ok (Some output_row) =>
      match writerow output_columns output_row with
      | Ok written => Some written
      | Raise _ => None
      end
  | _ => None
  end.

(** ** Delimiter detection, lines 88-89 *)

Definition newline : ascii := "010"%char.

(** [infile.readline()] at the start of a text, as text mode delivers it
    (line ends already translated to the newline character): the
    characters up to the first newline, with it. *)
Fixpoint readline (text : string) : string :=
  match text with
  | EmptyString => EmptyString
  | String c rest =>
      if Ascii.eqb c newline then String c EmptyString
      else String c (readline rest)
  end.

Definition detect_delimiter (text : string) : string :=
  let first_line := readline text in
  if Str.contains_char ";"%char first_line then ";" else ",".

(** ** Sample rows *)

Module Samples.

Definition jane : gmap string pyval :=
  {[ "Name" := PyStr "Jane"; "Surname" := PyStr "Doe";
     "Level" := PyStr "Level 2" ]}.

Definition bongani : gmap string pyval :=
  {[ "Full Name" := PyStr "Bongani"; "Level" := PyStr "inactive" ]}.

Definition no_names : gmap string pyval :=
  {[ "Name" := PyStr ""; "Surname" := PyStr ""; "Full Name" := PyStr "";
     "Level" := PyStr "3" ]}.

(** A short row: the reader leaves the missing fields at [None]. *)
Definition short_row : gmap string pyval :=
  {[ "Full Name" := PyStr "Thandi  van der Merwe"; "Name" := PyNone;
     "Surname" := PyNone; "Level" := PyNone ]}.

(** A given name made of one space, with a surname. *)
Definition blank_given : gmap string pyval :=
  {[ "Name" := PyStr " "; "Surname" := PyStr "Doe";
     "Full Name" := PyStr "Jane Doe"; "Level" := PyStr "2" ]}.

(** A level made of one space. *)
Definition blank_level : gmap string pyval :=
  {[ "Name" := PyStr "Jane"; "Surname" := PyStr "Doe"; "Level" := PyStr " " ]}.

(** The given name is the word of the sentinel, the surname is empty and
    the full name is usable. *)
Definition unknown_given : gmap string pyval :=
  {[ "Name" := PyStr "Unknown"; "Surname" := PyStr "";
     "Full Name" := PyStr "Jane Doe"; "Level" := PyStr "RR" ]}.

Definition unknown_doe : gmap string pyval :=
  {[ "Name" := PyStr "Unknown"; "Surname" := PyStr "Doe" ]}.

(** No name column at all. *)
Definition level_only : gmap string pyval := {[ "Level" := PyStr "3" ]}.

End Samples.

(** ** Evaluation of the string operations *)

Example strip_ex : Str.strip "  Jane  Doe " = "Jane  Doe".
Proof. reflexivity. Qed.
Example split_ex :
  Str.split "  Jane  van der  Doe " = ["Jane"; "van"; "der"; "Doe"].
Proof. reflexivity. Qed.
Example join_ex : Str.join " " ["van"; "der"; "Doe"] = "van der Doe".
Proof. reflexivity. Qed.
Example lower_ex : Str.lower "Pre LEVEL 1" = "pre level 1".
Proof. reflexivity. Qed.
Example of_int_ex : Str.of_int 0 = "0" /\ Str.of_int 350 = "350".
Proof. split; reflexivity. Qed.

(** ** Facts about the string operations *)

Module StrFacts.
Import Str.

Lemma isspace_lower_char c : isspace (lower_char c) = isspace c.
Proof. destruct c as [[] [] [] [] [] [] [] []]; reflexivity. Qed.

Lemma lower_nil_inv s : lower s = "" -> s = "".
Proof. destruct s; [reflexivity | discriminate]. Qed.

Lemma lower_lstrip s : lower (lstrip s) = lstrip (lower s).
Proof.
  induction s as [|c s IH]; simpl; [reflexivity|].
  rewrite isspace_lower_char. destruct (isspace c); [exact IH | reflexivity].
Qed.

Lemma lower_rstrip s : lower (rstrip s) = rstrip (lower s).
Proof.
  induction s as [|c s IH]; simpl; [reflexivity|].
  rewrite <- IH, isspace_lower_char.
  destruct (rstrip s) as [|c' r]; simpl; [|reflexivity].
  destruct (isspace c); reflexivity.
Qed.

Lemma lower_strip s : lower (strip s) = strip (lower s).
Proof. unfold strip. rewrite lower_rstrip, lower_lstrip. reflexivity. Qed.

Lemma lstrip_no_lead s : no_lead (lstrip s).
Proof.
  induction s as [|c s IH]; simpl; [exact I|].
  destruct (isspace c) eqn:E; [exact IH | exact E].
Qed.

Lemma lstrip_of_no_lead s : no_lead s -> lstrip s = s.
Proof. destruct s as [|c s]; simpl; [reflexivity|]. intros ->. reflexivity. Qed.

Lemma rstrip_no_lead s : no_lead s -> no_lead (rstrip s).
Proof.
  destruct s as [|c s]; simpl; [exact id|]. intros E.
  destruct (rstrip s); [rewrite E|]; exact E.
Qed.

Lemma strip_no_lead s : no_lead (strip s).
Proof. apply rstrip_no_lead, lstrip_no_lead. Qed.

Lemma rstrip_idem s : rstrip (rstrip s) = rstrip s.
Proof.
  induction s as [|c s IH]; simpl; [reflexivity|].
  destruct (rstrip s) as [|c' r] eqn:E.
  - destruct (isspace c) eqn:Ec; simpl; [reflexivity|]. rewrite Ec. reflexivity.
  - change (rstrip (String c (String c' r))) with
      (match rstrip (String c' r) with
       | EmptyString => if isspace c then EmptyString else String c EmptyString
       | r0 => String c r0
       end).
    rewrite IH. reflexivity.
Qed.

Lemma strip_idem s : strip (strip s) = strip s.
Proof.
  unfold strip at 1.
  rewrite (lstrip_of_no_lead _ (strip_no_lead s)).
  apply rstrip_idem.
Qed.

Lemma split_go_lstrip s : split_go None (lstrip s) = split_go None s.
Proof.
  induction s as [|c s IH]; simpl; [reflexivity|].
  destruct (isspace c) eqn:E; [exact IH|]. simpl. rewrite E. reflexivity.
Qed.

Lemma split_go_rstrip s : forall cur, split_go cur (rstrip s) = split_go cur s.
Proof.
  induction s as [|c s IH]; intros cur; simpl; [reflexivity|].
  destruct (rstrip s) as [|c' r] eqn:E.
  - destruct (isspace c) eqn:Ec; simpl.
    + rewrite <- IH. simpl. rewrite app_nil_r. reflexivity.
    + rewrite Ec, <- IH. reflexivity.
  - change (split_go cur (String c (String c' r))) with
      (if isspace c then option_list cur ++ split_go None (String c' r)
       else split_go (Some (from_option (fun t => t +:+ String c EmptyString)
                                        (String c EmptyString) cur))
                     (String c' r)).
    rewrite !IH. reflexivity.
Qed.

(** Stripping first, as line 68 does, does not change the tokens. *)
Lemma split_strip s : split (strip s) = split s.
Proof. unfold split, strip. rewrite split_go_rstrip. apply split_go_lstrip. Qed.

Lemma split_go_some t s : split_go (Some t) s <> [].
Proof.
  revert t. induction s as [|c s IH]; intros t; simpl; [discriminate|].
  destruct (isspace c); [discriminate | apply IH].
Qed.

(** A string has no token exactly when nothing is left of it after
    stripping. *)
Lemma split_nil_iff s : split s = [] <-> strip s = "".
Proof.
  split.
  - intros H. rewrite <- split_strip in H.
    pose proof (strip_no_lead s) as Hl.
    destruct (strip s) as [|c t]; [reflexivity|]. exfalso.
    unfold split in H. simpl in H, Hl. rewrite Hl in H.
    exact (split_go_some _ _ H).
  - intros H. rewrite <- split_strip, H. reflexivity.
Qed.

Lemma elem_true x xs : elem x xs = true <-> In x xs.
Proof.
  unfold elem. rewrite existsb_exists. split.
  - intros (y & Hy & E). apply String.eqb_eq in E. subst. exact Hy.
  - intros H. exists x. split; [exact H | apply String.eqb_refl].
Qed.

Lemma elem_false x xs : elem x xs = false <-> ~ In x xs.
Proof.
  rewrite <- elem_true. destruct (elem x xs); intuition congruence.
Qed.

End StrFacts.

(** ** Facts about the script's functions *)

Section Unfoldings.

Lemma truthy_str s : truthy (PyStr s) = true <-> s <> "".
Proof.
  simpl. destruct (String.eqb_spec s ""); simpl; intuition congruence.
Qed.

Lemma truthy_false v : truthy v = false <-> v = PyNone \/ v = PyStr "".
Proof.
  destruct v as [|s]; simpl; [intuition|].
  destruct (String.eqb_spec s ""); simpl; subst; intuition congruence.
Qed.

(** [normalize_level] on a [str], with its three outcomes spelled out. *)
Lemma normalize_level_str s :
  normalize_level (PyStr s) =
  if String.eqb s "" then Ok PyNone
  else if Str.elem (Str.lower s) ["inactive"; "none"; ""] then Ok PyNone
  else Ok (PyStr (dict_get level_map (Str.lower (Str.strip s)) (Str.strip s))).
Proof.
  unfold normalize_level, truthy, meth_lower, meth_strip, mbind, result_bind, bind.
  destruct (String.eqb s ""); [reflexivity|]. cbn [negb].
  destruct (Str.elem _ _); reflexivity.
Qed.

Lemma normalize_level_total level : exists v, normalize_level level = Ok v.
Proof.
  destruct level as [|s]; [eexists; reflexivity|].
  rewrite normalize_level_str.
  destruct (String.eqb s ""); [eauto|]. destruct (Str.elem _ _); eauto.
Qed.

Lemma level_map_values k v :
  level_map !! k = Some v -> In v (map snd level_map_items).
Proof.
  intros H. apply elem_of_list_to_map_2 in H.
  apply list_elem_of_In in H. apply (in_map snd) in H. exact H.
Qed.

End Unfoldings.

(** ** Level normalisation, fee and status *)

Section Level.
Import StrFacts.

(** C3, as the code has it: a raw level string that is empty, or that
    itself (as given, before any trimming) equals "inactive" or "none"
    up to letter case, is normalised to no level. *)
Theorem normalize_level_absent (s : string) :
  s = "" \/ Str.lower s = "inactive" \/ Str.lower s = "none" ->
  normalize_level (PyStr s) = Ok PyNone.
Proof.
  intros H. rewrite normalize_level_str.
  destruct (String.eqb_spec s "") as [|Hne]; [reflexivity|].
  destruct H as [H | [H | H]]; [contradiction | |]; rewrite H; reflexivity.
Qed.

Lemma normalize_level_absent_witness :
  (("InActive" : string) = "" \/ Str.lower "InActive" = "inactive"
   \/ Str.lower "InActive" = "none")
  /\ normalize_level (PyStr "InActive") = Ok PyNone.
Proof.
  split; [right; left; reflexivity|].
  apply (normalize_level_absent "InActive"). right; left; reflexivity.
Defined.

(** C3 fails with padding: " none" trims to "none", and is not
    normalised to no level but to the string "none". *)
Lemma normalize_level_padded_none :
  Str.lower (Str.strip " none") = "none"
  /\ normalize_level (PyStr " none") = Ok (PyStr "none")
  /\ normalize_level (PyStr " none") <> Ok PyNone.
Proof. split; [|split]; [reflexivity | reflexivity | discriminate]. Qed.

(** C7: a non-empty raw level whose trimmed, lowercased form is no key
    of the alias table (and is not "inactive", "none" or empty) is
    returned trimmed, in its own letter case, and nothing is raised. *)
Theorem normalize_level_passthrough (s : string) :
  s <> "" ->
  level_map !! Str.lower (Str.strip s) = None ->
  Str.lower (Str.strip s) <> "inactive" ->
  Str.lower (Str.strip s) <> "none" ->
  Str.lower (Str.strip s) <> "" ->
  normalize_level (PyStr s) = Ok (PyStr (Str.strip s)).
Proof.
  intros Hs Hmap Hi Hn He. rewrite normalize_level_str.
  destruct (String.eqb_spec s "") as [|_]; [contradiction|].
  assert (Str.elem (Str.lower s) ["inactive"; "none"; ""] = false) as ->.
  { apply elem_false. intros [E | [E | [E | []]]].
    - apply Hi. rewrite lower_strip, <- E. reflexivity.
    - apply Hn. rewrite lower_strip, <- E. reflexivity.
    - apply Hs. symmetry in E. exact (lower_nil_inv s E). }
  unfold dict_get. rewrite Hmap. reflexivity.
Qed.

Lemma normalize_level_passthrough_witness :
  normalize_level (PyStr "  Advanced Squad ") = Ok (PyStr "Advanced Squad").
Proof.
  apply (normalize_level_passthrough "  Advanced Squad ");
    [discriminate | reflexivity | discriminate | discriminate | discriminate].
Defined.

(** C4, as the code has it: when [normalize_level] yields a level
    string [t] that is not empty and does not equal "inactive" or "none"
    up to letter case, normalising [t] again yields [t] itself. *)
Theorem normalize_level_idempotent (level : pyval) (t : string) :
  normalize_level level = Ok (PyStr t) ->
  t <> "" -> Str.lower t <> "inactive" -> Str.lower t <> "none" ->
  normalize_level (PyStr t) = Ok (PyStr t).
Proof.
  intros H Ht Hi Hn.
  destruct level as [|s]; [discriminate|].
  rewrite normalize_level_str in H.
  destruct (String.eqb s ""); [discriminate|].
  destruct (Str.elem (Str.lower s) _); [discriminate|].
  injection H as H. unfold dict_get in H.
  destruct (level_map !! Str.lower (Str.strip s)) as [v|] eqn:Hk; simpl in H.
  - subst v. apply level_map_values in Hk. simpl in Hk.
    repeat (destruct Hk as [<- | Hk]; [reflexivity|]). destruct Hk.
  - subst t. rewrite normalize_level_str.
    destruct (String.eqb_spec (Str.strip s) "") as [|_]; [contradiction|].
    assert (Str.elem (Str.lower (Str.strip s)) ["inactive"; "none"; ""] = false)
      as ->.
    { apply elem_false. intros [E | [E | [E | []]]]; try congruence.
      apply Ht. symmetry in E. exact (lower_nil_inv _ E). }
    rewrite strip_idem. unfold dict_get. rewrite Hk. reflexivity.
Qed.

Lemma normalize_level_idempotent_witness :
  normalize_level (PyStr " LEVEL 3 ") = Ok (PyStr "Level 3")
  /\ normalize_level (PyStr "Level 3") = Ok (PyStr "Level 3").
Proof.
  split; [reflexivity|].
  apply (normalize_level_idempotent (PyStr " LEVEL 3 ") "Level 3");
    [reflexivity | discriminate | discriminate | discriminate].
Defined.

(** C4 fails on the outputs "Inactive" and the empty string: each is a
    non-absent output, and normalising it again yields no level. *)
Lemma normalize_level_not_idempotent :
  normalize_level (PyStr " Inactive ") = Ok (PyStr "Inactive")
  /\ normalize_level (PyStr "Inactive") = Ok PyNone
  /\ normalize_level (PyStr "  ") = Ok (PyStr "")
  /\ normalize_level (PyStr "") = Ok PyNone.
Proof. split; [|split; [|split]]; reflexivity. Qed.

End Level.

Section FeeAndStatus.
Import StrFacts.

(** C5, as the code has it: [get_monthly_fee] maps an absent and an
    empty level to 0, the thirteen keys of [LEVEL_FEES] to their fees,
    and every non-empty string that is no key of the table to 350. *)
Theorem get_monthly_fee_table :
  get_monthly_fee PyNone = 0
  /\ get_monthly_fee (PyStr "") = 0
  /\ get_monthly_fee (PyStr "RR") = 250
  /\ get_monthly_fee (PyStr "R") = 250
  /\ get_monthly_fee (PyStr "Pre level 1") = 300
  /\ get_monthly_fee (PyStr "Level 1") = 350
  /\ get_monthly_fee (PyStr "Level 2") = 400
  /\ get_monthly_fee (PyStr "Level 3") = 450
  /\ get_monthly_fee (PyStr "Level 4") = 500
  /\ get_monthly_fee (PyStr "Level 5") = 550
  /\ get_monthly_fee (PyStr "1") = 350
  /\ get_monthly_fee (PyStr "2") = 400
  /\ get_monthly_fee (PyStr "3") = 450
  /\ get_monthly_fee (PyStr "4") = 500
  /\ get_monthly_fee (PyStr "5") = 550
  /\ (forall s : string,
        s <> "" -> LEVEL_FEES !! s = None -> get_monthly_fee (PyStr s) = 350).
Proof.
  repeat (split; [vm_compute; reflexivity|]).
  intros s Hs Hk. unfold get_monthly_fee.
  apply truthy_str in Hs. rewrite Hs. simpl.
  unfold dict_get. rewrite Hk. reflexivity.
Qed.

Lemma get_monthly_fee_table_witness :
  get_monthly_fee (PyStr "Level 2") = 400
  /\ get_monthly_fee (PyStr "level 2") = 350.
Proof.
  pose proof get_monthly_fee_table as H.
  split; [apply H|].
  apply H; [discriminate | vm_compute; reflexivity].
Defined.

(** C5 fails on the empty string: it is a string, it is no key of the
    table, and its fee is 0, not 350. *)
Lemma get_monthly_fee_empty_string :
  LEVEL_FEES !! "" = None
  /\ get_monthly_fee (PyStr "") = 0
  /\ get_monthly_fee (PyStr "") <> 350.
Proof. split; [|split]; [vm_compute; reflexivity | reflexivity | discriminate]. Qed.

(** C6: the status derived from a level is "INACTIVE" exactly when the
    level is absent, empty, or equal to "inactive" or "none" up to letter
    case; it is "ACTIVE" in every other case, and never a third string. *)
Theorem derive_status_spec (level : pyval) :
  exists status : string,
    derive_status level = Ok status
    /\ (status = "INACTIVE" \/ status = "ACTIVE")
    /\ (status = "INACTIVE" <->
        level = PyNone \/ level = PyStr ""
        \/ exists s, level = PyStr s
                     /\ (Str.lower s = "inactive" \/ Str.lower s = "none"))
    /\ (status = "ACTIVE" <->
        ~ (level = PyNone \/ level = PyStr ""
           \/ exists s, level = PyStr s
                        /\ (Str.lower s = "inactive" \/ Str.lower s = "none"))).
Proof.
  destruct level as [|s].
  { exists "INACTIVE". split; [reflexivity|]. split; [auto|].
    split; split; auto; try discriminate. intros H; exfalso; apply H; auto. }
  unfold derive_status, truthy, meth_lower, mbind, result_bind, bind.
  destruct (String.eqb_spec s "") as [->|Hs]; cbn [negb].
  { exists "INACTIVE". split; [reflexivity|]. split; [auto|].
    split; split; auto; try discriminate. intros H; exfalso; apply H; auto. }
  destruct (Str.elem (Str.lower s) ["inactive"; "none"]) eqn:E.
  - apply elem_true in E.
    assert (Str.lower s = "inactive" \/ Str.lower s = "none") as Hl.
    { destruct E as [E | [E | []]]; auto. }
    exists "INACTIVE". split; [reflexivity|]. split; [auto|].
    split; split; eauto 6; try discriminate.
    intros H; exfalso; apply H; eauto 6.
  - apply elem_false in E.
    exists "ACTIVE". split; [reflexivity|]. split; [auto|].
    assert (~ (PyStr s = PyNone \/ PyStr s = PyStr ""
               \/ exists s0, PyStr s = PyStr s0
                    /\ (Str.lower s0 = "inactive" \/ Str.lower s0 = "none")))
      as Hno.
    { intros [H | [H | (s0 & H & Hl)]]; try congruence.
      injection H as <-. apply E. simpl. destruct Hl; auto. }
    split; split; auto; try discriminate. intros H. contradiction.
Qed.

Lemma derive_status_spec_witness : derive_status (PyStr "NONE") = Ok "INACTIVE".
Proof.
  destruct (derive_status_spec (PyStr "NONE")) as (status & H & _ & Hin & _).
  rewrite H. f_equal. apply Hin. right; right.
  exists "NONE". split; [reflexivity | right; reflexivity].
Defined.

End FeeAndStatus.

(** ** Name resolution *)

Section Names.
Import StrFacts.

Lemma parse_name_both (full_name : pyval) (g l : string) :
  g <> "" -> l <> "" ->
  parse_name full_name (PyStr g) (PyStr l) = Ok (Str.strip g, Str.strip l).
Proof.
  intros Hg Hl. unfold parse_name.
  apply truthy_str in Hg, Hl. rewrite Hg, Hl. reflexivity.
Qed.

Lemma parse_name_from_full (f : string) (first_name last_name : pyval) :
  truthy first_name && truthy last_name = false ->
  parse_name (PyStr f) first_name last_name =
  Ok (match Str.split f with
      | [] => ("Unknown", "Child")
      | [t] => (t, t)
      | t :: rest => (t, Str.join " " rest)
      end).
Proof.
  intros H. unfold parse_name. rewrite H.
  destruct (truthy (PyStr f)) eqn:Hf.
  - unfold meth_strip, mbind, result_bind, bind. rewrite split_strip.
    destruct (Str.split f) as [|t [|t' rest]]; reflexivity.
  - apply truthy_false in Hf as [Hf | Hf]; [discriminate|].
    injection Hf as ->. reflexivity.
Qed.

Lemma parse_name_no_full (first_name last_name : pyval) :
  truthy first_name && truthy last_name = false ->
  parse_name PyNone first_name last_name = Ok ("Unknown", "Child").
Proof. intros H. unfold parse_name. rewrite H. reflexivity. Qed.

Lemma parse_name_total (full_name first_name last_name : pyval) :
  exists p, parse_name full_name first_name last_name = Ok p.
Proof.
  destruct (truthy first_name && truthy last_name) eqn:H.
  - apply andb_true_iff in H as [Hf Hl].
    destruct first_name as [|g]; [discriminate|].
    destruct last_name as [|l]; [discriminate|].
    apply truthy_str in Hf, Hl. rewrite parse_name_both by assumption. eauto.
  - destruct full_name as [|f].
    + rewrite parse_name_no_full by assumption. eauto.
    + rewrite parse_name_from_full by assumption. eauto.
Qed.

(** C2, as the code has it: [parse_name] never raises; it returns the
    trimmed given name and surname exactly when both are present and
    non-empty as given (before trimming); otherwise, when the full name
    is non-empty after trimming, it returns the first token and the
    other tokens joined by single spaces, or a lone token twice;
    otherwise it returns the sentinel pair. *)
Theorem parse_name_spec (full_name first_name last_name : pyval) :
  exists first last : string,
    parse_name full_name first_name last_name = Ok (first, last)
    /\ (forall g l : string,
          first_name = PyStr g -> last_name = PyStr l ->
          g <> "" -> l <> "" ->
          first = Str.strip g /\ last = Str.strip l)
    /\ (first_name = PyNone \/ first_name = PyStr ""
        \/ last_name = PyNone \/ last_name = PyStr "" ->
        (forall f : string,
           full_name = PyStr f -> Str.strip f <> "" ->
           match Str.split f with
           | [] => False
           | [t] => first = t /\ last = t
           | t :: rest => first = t /\ last = Str.join " " rest
           end)
        /\ (full_name = PyNone
            \/ (exists f, full_name = PyStr f /\ Str.strip f = "") ->
            first = "Unknown" /\ last = "Child")).
Proof.
  destruct (truthy first_name && truthy last_name) eqn:H.
  - apply andb_true_iff in H as [Hf Hl].
    destruct first_name as [|g]; [discriminate|].
    destruct last_name as [|l]; [discriminate|].
    apply truthy_str in Hf, Hl.
    exists (Str.strip g), (Str.strip l).
    split; [apply parse_name_both; assumption|]. split.
    + intros g' l' [= <-] [= <-] _ _. auto.
    + intros [E | [E | [E | E]]]; congruence.
  - destruct full_name as [|f].
    + exists "Unknown", "Child".
      split; [apply parse_name_no_full; assumption|]. split.
      * intros g l -> -> Hg Hl. apply truthy_str in Hg, Hl.
        simpl in H. simpl in Hg, Hl. rewrite Hg, Hl in H. discriminate.
      * intros _. split; [intros f [=] | auto].
    + pose proof (parse_name_from_full f _ _ H) as Hp.
      pose proof (split_nil_iff f) as Hnil.
      destruct (Str.split f) as [|t [|t' rest]] eqn:Hsp;
        eexists _, _; (split; [exact Hp|]); (split;
          [ intros g l -> -> Hg Hl; apply truthy_str in Hg, Hl;
            simpl in H, Hg, Hl; rewrite Hg, Hl in H; discriminate
          | intros _; split ]).
      * intros f' [= <-] Hne. rewrite Hsp. apply Hne, Hnil. reflexivity.
      * auto.
      * intros f' [= <-] _. rewrite Hsp. auto.
      * intros [[=] | (f' & [= <-] & E)]. apply Hnil in E. discriminate.
      * intros f' [= <-] _. rewrite Hsp. auto.
      * intros [[=] | (f' & [= <-] & E)]. apply Hnil in E. discriminate.
Qed.

Lemma parse_name_spec_witness :
  exists first last : string,
    parse_name (PyStr "Thandi  van der Merwe") PyNone PyNone = Ok (first, last)
    /\ first = "Thandi" /\ last = "van der Merwe".
Proof.
  destruct (parse_name_spec (PyStr "Thandi  van der Merwe") PyNone PyNone)
    as (first & last & Hp & _ & H).
  exists first, last. split; [exact Hp|].
  destruct (H (or_introl eq_refl)) as [Hf _].
  apply (Hf "Thandi  van der Merwe" eq_refl). discriminate.
Defined.

(** C2 fails on a given name made of one space: it is empty after
    trimming and the full name has the two tokens "Jane" and "Doe", yet
    the first branch is taken and the first name returned is empty. *)
Lemma parse_name_blank_given :
  Str.strip " " = ""
  /\ Str.strip "Jane Doe" <> ""
  /\ Str.split "Jane Doe" = ["Jane"; "Doe"]
  /\ parse_name (PyStr "Jane Doe") (PyStr " ") (PyStr "Doe") = Ok ("", "Doe").
Proof. split; [|split; [|split]]; try reflexivity. discriminate. Qed.

End Names.

(** ** Rows *)

Section Rows.
Import StrFacts.

Lemma derive_status_total (level : pyval) :
  exists status, derive_status level = Ok status.
Proof.
  destruct level as [|s]; [eexists; reflexivity|].
  unfold derive_status, truthy, meth_lower, mbind, result_bind, bind.
  destruct (String.eqb s ""); cbn [negb]; eauto.
Qed.

(** What [build_row] computes, with the names of the local variables. *)
Lemma build_row_eq (row : gmap string pyval) :
  exists (child_first child_last : string) (level : pyval) (status : string),
    parse_name (row_get row "Full Name") (row_get row "Name")
               (row_get row "Surname") = Ok (child_first, child_last)
    /\ normalize_level (row_get row "Level") = Ok level
    /\ derive_status level = Ok status
    /\ build_row row =
       Ok (if String.eqb child_first "Unknown" || String.eqb child_last ""
           then None
           else Some (output_row child_first child_last
                        (generate_parent_email child_first child_last)
                        level (get_monthly_fee level) status)).
Proof.
  destruct (parse_name_total (row_get row "Full Name") (row_get row "Name")
              (row_get row "Surname")) as ([first last] & Hp).
  destruct (normalize_level_total (row_get row "Level")) as (level & Hl).
  destruct (derive_status_total level) as (status & Hs).
  exists first, last, level, status. repeat (split; [assumption|]).
  unfold build_row. rewrite Hp, Hl. cbn [mbind result_bind bind].
  rewrite Hs. cbn [mbind result_bind bind].
  destruct (String.eqb first "Unknown" || String.eqb last ""); [reflexivity|].
  unfold get_monthly_fee. destruct (truthy level); reflexivity.
Qed.

(** The dictionary has the field names as its keys, in their order, so
    [writerow] writes its cells as they are. *)
Lemma writerow_output_row f l e lv fee st :
  writerow output_columns (output_row f l e lv fee st)
  = Ok (output_row f l e lv fee st).
Proof. reflexivity. Qed.

Lemma accepted_inv (row : gmap string pyval) (r : record) :
  accepted row r ->
  exists (child_first child_last : string) (level : pyval) (status : string),
    parse_name (row_get row "Full Name") (row_get row "Name")
               (row_get row "Surname") = Ok (child_first, child_last)
    /\ normalize_level (row_get row "Level") = Ok level
    /\ derive_status level = Ok status
    /\ child_first <> "Unknown" /\ child_last <> ""
    /\ r = output_row child_first child_last
             (generate_parent_email child_first child_last)
             level (get_monthly_fee level) status.
Proof.
  intros (o & Hb & Hw).
  destruct (build_row_eq row) as (f & l & lv & st & Hp & Hl & Hs & E).
  rewrite E in Hb. exists f, l, lv, st. repeat (split; [assumption|]).
  destruct (String.eqb_spec f "Unknown"); [discriminate|].
  destruct (String.eqb_spec l ""); [discriminate|].
  simpl in Hb. injection Hb as <-.
  rewrite writerow_output_row in Hw. injection Hw as <-. auto.
Qed.

Lemma LEVEL_FEES_nonneg (k : string) (fee : Z) :
  LEVEL_FEES !! k = Some fee -> 0 <= fee.
Proof.
  intros H. apply elem_of_list_to_map_2, list_elem_of_In in H. simpl in H.
  repeat (destruct H as [[= <- <-] | H]; [lia|]). destruct H.
Qed.

Lemma get_monthly_fee_nonneg (level : pyval) : 0 <= get_monthly_fee level.
Proof.
  unfold get_monthly_fee. destruct (truthy level); simpl; [|lia].
  destruct level as [|s]; [lia|]. unfold dict_get.
  destruct (LEVEL_FEES !! s) eqn:E; simpl; [|lia].
  exact (LEVEL_FEES_nonneg _ _ E).
Qed.

(** What the admission test of line 127 guarantees of a written record. *)
Lemma accepted_names (row : gmap string pyval) (r : record) :
  accepted row r ->
  exists first last : string,
    field r "firstName" = Some first /\ field r "lastName" = Some last
    /\ first <> "Unknown" /\ last <> "".
Proof.
  intros H. apply accepted_inv in H
    as (f & l & lv & st & _ & _ & _ & Hf & Hl & ->).
  exists f, l. auto.
Qed.

(** C1 at a row whose given name is one space and whose surname is
    "Doe": the row is accepted and the record written for it has an
    empty first name. *)
Theorem blank_given_name_accepted :
  exists r : record,
    accepted Samples.blank_given r
    /\ field r "firstName" = Some ""
    /\ field r "lastName" = Some "Doe".
Proof.
  eexists. split; [|split].
  - eexists. split; vm_compute; reflexivity.
  - reflexivity.
  - reflexivity.
Qed.

(** C8, as the code has it: the record of an accepted row has the 18
    field names as its keys, in their order; its fixed fields hold their
    literals; the parent's last name is the child's; [level] is the
    normalised level, or "R" when that level is absent or empty; and
    [monthlyFee] is the letter R followed by the fee of the normalised
    level, which is not negative. *)
Theorem accepted_record_fields (row : gmap string pyval) (r : record) :
  accepted row r ->
  exists (level : pyval) (last : string),
    normalize_level (row_get row "Level") = Ok level
    /\ map fst r = output_columns
    /\ length r = 18%nat
    /\ field r "lastName" = Some last
    /\ field r "parentFirstName" = Some "Parent"
    /\ field r "parentLastName" = Some last
    /\ field r "parentPhone" = Some ""
    /\ (level = PyNone \/ level = PyStr "" -> field r "level" = Some "R")
    /\ (forall s : string,
          level = PyStr s -> s <> "" -> field r "level" = Some s)
    /\ field r "notes"
       = Some "Imported from CSV - verify parent contact details"
    /\ field r "currentBalance" = Some "R0"
    /\ 0 <= get_monthly_fee level
    /\ field r "monthlyFee" = Some ("R" +:+ Str.of_int (get_monthly_fee level))
    /\ field r "dateOfBirth" = Some ""
    /\ field r "gender" = Some ""
    /\ field r "sagfFee" = Some ""
    /\ field r "equipmentFee" = Some ""
    /\ field r "competitionFee" = Some ""
    /\ field r "lastPaymentDate" = Some ""
    /\ field r "lastPaymentAmount" = Some "".
Proof.
  intros H. apply accepted_inv in H
    as (f & l & lv & st & _ & Hlv & _ & _ & _ & ->).
  exists lv, l. split; [exact Hlv|].
  do 6 (split; [reflexivity|]).
  split.
  { intros [-> | ->]; reflexivity. }
  split.
  { intros s -> Hs. apply truthy_str in Hs.
    change (Some (level_or_R (PyStr s)) = Some s).
    unfold level_or_R. rewrite Hs. reflexivity. }
  do 2 (split; [reflexivity|]).
  split; [apply get_monthly_fee_nonneg|].
  repeat split.
Qed.

Lemma accepted_record_fields_witness :
  exists r : record,
    accepted Samples.jane r
    /\ map fst r = output_columns
    /\ field r "level" = Some "Level 2"
    /\ field r "monthlyFee" = Some "R400".
Proof.
  assert (accepted Samples.jane
            (output_row "Jane" "Doe" "jane.doe@placeholder.com"
               (PyStr "Level 2") 400 "ACTIVE")) as Hacc.
  { eexists. split; vm_compute; reflexivity. }
  eexists. split; [exact Hacc|].
  destruct (accepted_record_fields _ _ Hacc)
    as (lv & l & Hlv & Hk & _ & _ & _ & _ & _ & _ & Hs & _).
  split; [exact Hk|]. split; [|reflexivity].
  vm_compute in Hlv. injection Hlv as <-.
  apply (Hs "Level 2" eq_refl). discriminate.
Defined.

(** C8 fails on a level made of one space: the normalised level is the
    empty string, which is not absent, and the record's [level] is "R". *)
Lemma blank_level_written_as_R :
  exists r : record,
    accepted Samples.blank_level r
    /\ normalize_level (row_get Samples.blank_level "Level") = Ok (PyStr "")
    /\ field r "level" = Some "R"
    /\ field r "level" <> Some "".
Proof.
  eexists. split; [|split; [|split]].
  - eexists. split; vm_compute; reflexivity.
  - vm_compute. reflexivity.
  - reflexivity.
  - discriminate.
Qed.

(** C9, as the code has it: a row whose given name is exactly "Unknown"
    and whose surname is present and not empty is rejected, whatever its
    other fields: line 127 compares the resolved first name with the
    literal "Unknown". *)
Theorem unknown_given_name_rejected (row : gmap string pyval) (l : string) :
  row !! "Name" = Some (PyStr "Unknown") ->
  row !! "Surname" = Some (PyStr l) ->
  l <> "" ->
  rejected row.
Proof.
  intros Hn Hs Hl. unfold rejected.
  destruct (build_row_eq row) as (f & l' & lv & st & Hp & _ & _ & ->).
  unfold row_get, dict_get in Hp. rewrite Hn, Hs in Hp. simpl in Hp.
  rewrite parse_name_both in Hp by (discriminate || assumption).
  injection Hp as <- <-. reflexivity.
Qed.

Lemma unknown_given_name_rejected_witness : rejected Samples.unknown_doe.
Proof.
  apply (unknown_given_name_rejected Samples.unknown_doe "Doe");
    [vm_compute; reflexivity | vm_compute; reflexivity | discriminate].
Defined.

(** C9 fails when the surname is empty and the full name is usable: the
    given name is exactly "Unknown", and the row is accepted under the
    names of its full name. *)
Lemma unknown_given_name_accepted :
  Samples.unknown_given !! "Name" = Some (PyStr "Unknown")
  /\ ~ rejected Samples.unknown_given
  /\ exists r : record,
       accepted Samples.unknown_given r
       /\ field r "firstName" = Some "Jane"
       /\ field r "lastName" = Some "Doe".
Proof.
  split; [vm_compute; reflexivity|]. split.
  - unfold rejected. vm_compute. discriminate.
  - eexists. split; [|split].
    + eexists. split; vm_compute; reflexivity.
    + reflexivity.
    + reflexivity.
Qed.

End Rows.

(** ** The loop and its counters *)

Section Loop.

(** One iteration never raises, and moves exactly one counter, by one;
    it writes a record exactly when it moves [rows_converted]. *)
Lemma loop_body_step (st : conv_state) (row : gmap string pyval) :
  exists st' : conv_state,
    loop_body st row = Ok st'
    /\ ((rows_converted st' = S (rows_converted st)
         /\ rows_skipped st' = rows_skipped st
         /\ length (outfile st') = S (length (outfile st)))
        \/ (rows_converted st' = rows_converted st
            /\ rows_skipped st' = S (rows_skipped st)
            /\ outfile st' = outfile st)).
Proof.
  unfold loop_body.
  destruct (build_row_eq row) as (f & l & lv & s & _ & _ & _ & ->).
  cbn [mbind result_bind bind].
  destruct (String.eqb f "Unknown" || String.eqb l "").
  - eexists. split; [reflexivity|]. right. auto.
  - rewrite writerow_output_row. cbn [mbind result_bind bind].
    eexists. split; [reflexivity|]. left. cbn [outfile rows_converted rows_skipped].
    rewrite length_app. simpl. split; [reflexivity|]. split; [reflexivity|]. lia.
Qed.

Lemma for_rows_counters (reader : list (gmap string pyval)) :
  forall st : conv_state,
  exists st' : conv_state,
    for_rows st reader = Ok st'
    /\ (rows_converted st' + rows_skipped st'
        = rows_converted st + rows_skipped st + length reader)%nat
    /\ (length (outfile st') + rows_converted st
        = length (outfile st) + rows_converted st')%nat.
Proof.
  induction reader as [|row rest IH]; intros st; simpl.
  - exists st. split; [reflexivity|]. lia.
  - destruct (loop_body_step st row) as (st1 & -> & Hstep).
    cbn [mbind result_bind bind].
    destruct (IH st1) as (st' & -> & Hsum & Hout).
    exists st'. split; [reflexivity|].
    destruct Hstep as [(Hc & Hs & Ho) | (Hc & Hs & Ho)];
      rewrite ?Hc, ?Hs, ?Ho in *; lia.
Qed.

(** C10: every input record moves exactly one of the two counters, by
    exactly one, so a run ends with the two counters adding up to the
    number of input records, and with the rejected count equal to the
    number of records that were not written. *)
Theorem convert_csv_counters (reader : list (gmap string pyval)) :
  (forall (st : conv_state) (row : gmap string pyval),
      exists st' : conv_state,
        loop_body st row = Ok st'
        /\ ((rows_converted st' = S (rows_converted st)
             /\ rows_skipped st' = rows_skipped st)
            \/ (rows_converted st' = rows_converted st
                /\ rows_skipped st' = S (rows_skipped st))))
  /\ exists final : conv_state,
       convert_csv reader = Ok final
       /\ (rows_converted final + rows_skipped final = length reader)%nat
       /\ rows_converted final = length (outfile final)
       /\ (rows_skipped final = length reader - length (outfile final))%nat.
Proof.
  split.
  - intros st row. destruct (loop_body_step st row) as (st' & H & Hstep).
    exists st'. split; [exact H|]. tauto.
  - destruct (for_rows_counters reader conv_init) as (final & H & Hsum & Hout).
    exists final. split; [exact H|]. simpl in Hsum, Hout. lia.
Qed.

End Loop.

(** ** The scenarios of the specification *)

Section Scenarios.

Example jane_row :
  convert_csv [Samples.jane] =
  Ok {| outfile := [output_row "Jane" "Doe" "jane.doe@placeholder.com"
                      (PyStr "Level 2") 400 "ACTIVE"];
        rows_converted := 1; rows_skipped := 0 |}.
Proof. vm_compute. reflexivity. Qed.

Example bongani_row :
  convert_csv [Samples.bongani] =
  Ok {| outfile := [output_row "Bongani" "Bongani"
                      "bongani.bongani@placeholder.com" PyNone 0 "INACTIVE"];
        rows_converted := 1; rows_skipped := 0 |}.
Proof. vm_compute. reflexivity. Qed.

Example no_names_row :
  convert_csv [Samples.no_names; ∅] =
  Ok {| outfile := []; rows_converted := 0; rows_skipped := 2 |}.
Proof. vm_compute. reflexivity. Qed.

Example short_row_converted :
  convert_csv [Samples.short_row] =
  Ok {| outfile := [output_row "Thandi" "van der Merwe"
                      "thandi.vandermerwe@placeholder.com" PyNone 0 "INACTIVE"];
        rows_converted := 1; rows_skipped := 0 |}.
Proof. vm_compute. reflexivity. Qed.

End Scenarios.

(** ** The placeholder e-mail address *)

Section Email.
Import StrFacts.


Lemma lower_char_letter_is_lower c :
  Str.is_ascii_letter (Str.lower_char c) = true ->
  Str.is_ascii_lower (Str.lower_char c) = true.
Proof. destruct c as [[] [] [] [] [] [] [] []]; intros H; (exact H || reflexivity). Qed.


Lemma sub_non_letters_all_lower s :
  Str.all_chars Str.is_ascii_lower (Str.sub_non_letters (Str.lower s)) = true.
Proof.
  induction s as [|c s IH]; simpl; [reflexivity|].
  destruct (Str.is_ascii_letter (Str.lower_char c)) eqn:E; simpl; [|exact IH].
  rewrite (lower_char_letter_is_lower _ E). exact IH.
Qed.

(** X1: the address made for any two names is a run of letters a..z
    (possibly empty), a dot, a second such run, and "@placeholder.com". *)
Theorem generate_parent_email_shape (first_name last_name : string) :
  exists a b : string,
    generate_parent_email first_name last_name
    = a +:+ "." +:+ b +:+ "@placeholder.com"
    /\ Str.all_chars Str.is_ascii_lower a = true
    /\ Str.all_chars Str.is_ascii_lower b = true.
Proof.
  exists (Str.sub_non_letters (Str.lower first_name)),
         (Str.sub_non_letters (Str.lower last_name)).
  split; [reflexivity|]. split; apply sub_non_letters_all_lower.
Qed.



End Email.

(** ** Delimiter detection *)

Section Delimiter.

Lemma contains_readline text :
  Str.contains_char ";" (readline text) = true <->
  exists pre post : string,
    text = pre +:+ String ";" post /\ Str.contains_char newline pre = false.
Proof.
  induction text as [|c text IH]; simpl.
  - split; [discriminate|]. intros (pre & post & E & _).
    destruct pre; discriminate.
  - destruct (Ascii.eqb_spec c newline) as [->|Hc]; simpl.
    + split; [discriminate|]. intros (pre & post & E & Hp).
      destruct pre as [|x pre]; [discriminate|].
      injection E as <- _. simpl in Hp. discriminate.
    + destruct (Ascii.eqb_spec c ";") as [->|Hs]; simpl.
      * split; [|reflexivity]. intros _. exists EmptyString, text. auto.
      * rewrite IH. split.
        -- intros (pre & post & -> & Hp). exists (String c pre), post.
           split; [reflexivity|]. simpl.
           destruct (Ascii.eqb_spec c newline); [contradiction|exact Hp].
        -- intros (pre & post & E & Hp).
           destruct pre as [|x pre]; [injection E as -> _; contradiction|].
           injection E as <- ->. simpl in Hp.
           apply orb_false_iff in Hp as [_ Hp]. eauto.
Qed.

(** X3: the delimiter is ";" when a semicolon stands before the first
    newline of the text, and "," in every other case: an empty text, a
    semicolon only on a later line. *)
Theorem detect_delimiter_first_line (text : string) :
  (detect_delimiter text = ";" <->
   exists pre post : string,
     text = pre +:+ String ";" post /\ Str.contains_char newline pre = false)
  /\ (detect_delimiter text = "," <->
      ~ exists pre post : string,
          text = pre +:+ String ";" post /\ Str.contains_char newline pre = false).
Proof.
  unfold detect_delimiter. rewrite <- contains_readline.
  destruct (Str.contains_char ";" (readline text)); split; split;
    intros H; try reflexivity; try discriminate; try congruence; tauto.
Qed.

Lemma detect_delimiter_first_line_witness :
  detect_delimiter (String.concat (String newline "") ["Name;Surname"; "Jane;Doe"])
  = ";"
  /\ detect_delimiter (String.concat (String newline "") ["Name,Surname"; "A;B,Doe"])
     = ",".
Proof.
  split.
  - apply (detect_delimiter_first_line _).
    exists "Name", (String.concat (String newline "") ["Surname"; "Jane;Doe"]).
    split; reflexivity.
  - reflexivity.
Defined.

End Delimiter.

(** ** Tokens and resolved names *)

Module TokenFacts.
Import Str StrFacts.

Lemma app_cons c a b : String c a +:+ b = String c (a +:+ b).
Proof. reflexivity. Qed.

Lemma has_space_app a b : has_space (a +:+ b) = has_space a || has_space b.
Proof.
  induction a as [|c a IH]; [reflexivity|].
  rewrite app_cons. simpl. rewrite IH, orb_assoc. reflexivity.
Qed.

Lemma app_nonempty_r a b : b <> "" -> a +:+ b <> "".
Proof. destruct a; [auto | discriminate]. Qed.

Lemma split_go_tokens s :
  forall cur, (forall t, cur = Some t -> token t) -> Forall token (split_go cur s).
Proof.
  induction s as [|c s IH]; intros cur Hcur; simpl.
  - destruct cur as [t|]; simpl; [constructor; auto | constructor].
  - destruct (isspace c) eqn:Ec.
    + apply Forall_app. split; [|apply IH; discriminate].
      destruct cur as [t|]; simpl; [constructor; auto | constructor].
    + apply IH. intros t [= <-]. destruct cur as [t0|]; simpl.
      * destruct (Hcur t0 eq_refl) as [_ H0]. split.
        -- apply app_nonempty_r. discriminate.
        -- rewrite has_space_app, H0. simpl. rewrite Ec. reflexivity.
      * split; [discriminate|]. simpl. rewrite Ec. reflexivity.
Qed.

Lemma split_tokens s : Forall token (split s).
Proof. apply split_go_tokens. discriminate. Qed.

Lemma lstrip_no_space t : has_space t = false -> lstrip t = t.
Proof.
  destruct t as [|c t]; simpl; [reflexivity|].
  intros H. apply orb_false_iff in H as [-> _]. reflexivity.
Qed.

Lemma rstrip_no_space t : has_space t = false -> rstrip t = t.
Proof.
  induction t as [|c t IH]; simpl; [reflexivity|].
  intros H. apply orb_false_iff in H as [Hc Ht]. rewrite (IH Ht), Hc.
  destruct t; reflexivity.
Qed.

Lemma strip_token t : token t -> strip t = t.
Proof.
  intros [_ H]. unfold strip. rewrite (lstrip_no_space _ H).
  apply rstrip_no_space, H.
Qed.

Lemma rstrip_app a b : rstrip b <> "" -> rstrip (a +:+ b) = a +:+ rstrip b.
Proof.
  intros Hb. induction a as [|c a IH]; [reflexivity|].
  rewrite !app_cons. simpl. rewrite IH.
  destruct (a +:+ rstrip b) eqn:E; [|reflexivity].
  exfalso. exact (app_nonempty_r a _ Hb E).
Qed.

Lemma join_tokens_nonempty t rest :
  token t -> join " " (t :: rest) <> "".
Proof.
  intros [Ht _]. destruct t as [|c t]; [contradiction|].
  destruct rest; simpl; discriminate.
Qed.

Lemma rstrip_join ts : Forall token ts -> rstrip (join " " ts) = join " " ts.
Proof.
  induction 1 as [|t rest Ht Hrest IH]; [reflexivity|].
  destruct rest as [|t' rest'].
  - simpl. apply rstrip_no_space, Ht.
  - change (join " " (t :: t' :: rest'))
      with (t +:+ " " +:+ join " " (t' :: rest')).
    assert (rstrip (join " " (t' :: rest')) <> "") as Hne.
    { rewrite IH. apply join_tokens_nonempty.
      apply Forall_cons in Hrest as [H _]. exact H. }
    rewrite rstrip_app.
    + rewrite rstrip_app by exact Hne. rewrite IH. reflexivity.
    + rewrite rstrip_app by exact Hne. apply app_nonempty_r. exact Hne.
Qed.

Lemma join_no_lead t rest : token t -> no_lead (join " " (t :: rest)).
Proof.
  intros [Ht Hs]. destruct t as [|c t]; [contradiction|].
  simpl in Hs. apply orb_false_iff in Hs as [Hc _].
  destruct rest; exact Hc.
Qed.

Lemma strip_join t rest :
  Forall token (t :: rest) -> strip (join " " (t :: rest)) = join " " (t :: rest).
Proof.
  intros H. unfold strip. rewrite lstrip_of_no_lead.
  - apply rstrip_join, H.
  - apply join_no_lead. apply Forall_cons in H as [H _]. exact H.
Qed.

End TokenFacts.

Section ResolvedNames.
Import StrFacts TokenFacts.

Lemma falsy_pair (a b : pyval) :
  a = PyNone \/ a = PyStr "" \/ b = PyNone \/ b = PyStr "" ->
  truthy a && truthy b = false.
Proof.
  intros H. apply andb_false_iff. rewrite !truthy_false. tauto.
Qed.

Lemma parse_name_full_cases (full_name first_name last_name : pyval) :
  truthy first_name && truthy last_name = false ->
  parse_name full_name first_name last_name = Ok ("Unknown", "Child")
  \/ exists f t rest,
       full_name = PyStr f /\ Str.split f = t :: rest
       /\ parse_name full_name first_name last_name
          = Ok (t, match rest with [] => t | _ => Str.join " " rest end).
Proof.
  intros H. destruct full_name as [|f].
  - left. apply parse_name_no_full, H.
  - rewrite (parse_name_from_full f _ _ H).
    destruct (Str.split f) as [|t [|t' rest]] eqn:E.
    + left. reflexivity.
    + right. exists f, t, []. auto.
    + right. exists f, t, (t' :: rest). auto.
Qed.

(** X4: when the given name or the surname is absent or empty, the first
    name [parse_name] returns is not empty and holds no whitespace, and
    the last name is not empty: a full name yields tokens, and the
    sentinel pair is used when it has none. *)
Theorem parse_name_full_branch_names
    (full_name first_name last_name : pyval) (first last : string) :
  first_name = PyNone \/ first_name = PyStr ""
  \/ last_name = PyNone \/ last_name = PyStr "" ->
  parse_name full_name first_name last_name = Ok (first, last) ->
  first <> "" /\ Str.has_space first = false /\ last <> "".
Proof.
  intros Hf Hp. apply falsy_pair in Hf.
  destruct (parse_name_full_cases full_name _ _ Hf)
    as [E | (f & t & rest & -> & Hs & E)]; rewrite E in Hp.
  - injection Hp as <- <-. repeat split; discriminate || reflexivity.
  - injection Hp as <- <-.
    pose proof (split_tokens f) as Ht. rewrite Hs in Ht.
    apply Forall_cons in Ht as [[Hne Hsp] Hrest].
    split; [exact Hne|]. split; [exact Hsp|].
    destruct rest as [|t' rest']; [exact Hne|].
    apply join_tokens_nonempty. apply Forall_cons in Hrest as [H _]. exact H.
Qed.

Lemma parse_name_full_branch_names_witness :
  parse_name (PyStr " Thandi  van der Merwe ") (PyStr "") PyNone
  = Ok ("Thandi", "van der Merwe")
  /\ ("Thandi" : string) <> "" /\ Str.has_space "Thandi" = false
  /\ ("van der Merwe" : string) <> "".
Proof.
  split; [reflexivity|].
  apply (parse_name_full_branch_names
           (PyStr " Thandi  van der Merwe ") (PyStr "") PyNone);
    [right; left; reflexivity | reflexivity].
Defined.

(** X5: the two names [parse_name] returns never start or end with
    whitespace, whichever branch produced them. *)
Theorem parse_name_stripped
    (full_name first_name last_name : pyval) (first last : string) :
  parse_name full_name first_name last_name = Ok (first, last) ->
  Str.strip first = first /\ Str.strip last = last.
Proof.
  intros Hp. destruct (truthy first_name && truthy last_name) eqn:H.
  - apply andb_true_iff in H as [Hf Hl].
    destruct first_name as [|g]; [discriminate|].
    destruct last_name as [|l]; [discriminate|].
    apply truthy_str in Hf, Hl. rewrite parse_name_both in Hp by assumption.
    injection Hp as <- <-. split; apply strip_idem.
  - destruct (parse_name_full_cases full_name _ _ H)
      as [E | (f & t & rest & -> & Hs & E)]; rewrite E in Hp;
      injection Hp as <- <-; [split; reflexivity|].
    pose proof (split_tokens f) as Ht. rewrite Hs in Ht.
    pose proof Ht as Hall. apply Forall_cons in Ht as [Htok Hrest].
    split; [apply strip_token, Htok|].
    destruct rest as [|t' rest']; [apply strip_token, Htok|].
    apply strip_join, Hrest.
Qed.

Lemma parse_name_stripped_witness :
  parse_name PyNone (PyStr "  Mary Ann ") (PyStr " de la Rey  ")
  = Ok ("Mary Ann", "de la Rey")
  /\ Str.strip "Mary Ann" = "Mary Ann" /\ Str.strip "de la Rey" = "de la Rey".
Proof.
  split; [reflexivity|].
  apply (parse_name_stripped PyNone (PyStr "  Mary Ann ") (PyStr " de la Rey  ")).
  reflexivity.
Defined.

End ResolvedNames.

(** ** Admission *)

Section Admission.
Import StrFacts TokenFacts.

Lemma admission (row : gmap string pyval) (first last : string) :
  parse_name (row_get row "Full Name") (row_get row "Name")
             (row_get row "Surname") = Ok (first, last) ->
  (rejected row <-> first = "Unknown" \/ last = "")
  /\ ((exists r, accepted row r) <-> first <> "Unknown" /\ last <> "").
Proof.
  intros Hp. unfold rejected, accepted.
  destruct (build_row_eq row) as (f & l & lv & st & Hp' & _ & _ & ->).
  rewrite Hp in Hp'. injection Hp' as <- <-.
  destruct (String.eqb_spec first "Unknown") as [Hf|Hf];
    destruct (String.eqb_spec last "") as [Hl|Hl]; simpl;
    (split; split;
      [ intros H; try discriminate; auto
      | intros H; try reflexivity; try tauto
      | intros (r & o & H & _); try discriminate; auto
      | intros H; try tauto ]).
  destruct H as [_ _]. eexists. eexists. split; [reflexivity|].
  apply writerow_output_row.
Qed.

(** X6: a row is either rejected or accepted, never both and never
    neither; it is rejected exactly when the first name [parse_name]
    resolves is "Unknown" or the last name it resolves is empty. *)
Theorem admission_rule (row : gmap string pyval) :
  exists first last : string,
    parse_name (row_get row "Full Name") (row_get row "Name")
               (row_get row "Surname") = Ok (first, last)
    /\ (rejected row <-> first = "Unknown" \/ last = "")
    /\ ((exists r, accepted row r) <-> ~ rejected row).
Proof.
  destruct (parse_name_total (row_get row "Full Name") (row_get row "Name")
              (row_get row "Surname")) as ([first last] & Hp).
  exists first, last. split; [exact Hp|].
  destruct (admission row first last Hp) as [Hr Ha].
  split; [exact Hr|]. rewrite Ha, Hr.
  destruct (String.eqb_spec first "Unknown"), (String.eqb_spec last ""); tauto.
Qed.

(** X7: a row without usable name data is rejected: the given name or the
    surname is missing, [None] or empty, and the full name is missing,
    [None], empty or made of whitespace only. *)
Theorem nameless_row_rejected (row : gmap string pyval) :
  row_get row "Name" = PyNone \/ row_get row "Name" = PyStr ""
  \/ row_get row "Surname" = PyNone \/ row_get row "Surname" = PyStr "" ->
  row_get row "Full Name" = PyNone
  \/ (exists f, row_get row "Full Name" = PyStr f /\ Str.strip f = "") ->
  rejected row.
Proof.
  intros Hn Hf. apply falsy_pair in Hn.
  apply (admission row "Unknown" "Child"); [|left; reflexivity].
  destruct Hf as [-> | (f & -> & Hs)].
  - apply parse_name_no_full, Hn.
  - rewrite (parse_name_from_full f _ _ Hn).
    apply split_nil_iff in Hs. rewrite Hs. reflexivity.
Qed.

Lemma nameless_row_rejected_witness :
  rejected Samples.level_only
  /\ rejected {[ "Name" := PyStr "Jane"; "Surname" := PyNone;
                 "Full Name" := PyStr "   " ]}.
Proof.
  split; apply nameless_row_rejected;
    solve [ left; vm_compute; reflexivity
          | right; left; vm_compute; reflexivity
          | right; right; left; vm_compute; reflexivity
          | right; eexists; split; [vm_compute; reflexivity | reflexivity] ].
Defined.

Lemma row_get_insert_ne (row : gmap string pyval) (k key : string) (v : pyval) :
  k <> key -> row_get (<[k := v]> row) key = row_get row key.
Proof. intros H. unfold row_get, dict_get. rewrite lookup_insert_ne; auto. Qed.

Lemma row_get_delete_ne (row : gmap string pyval) (k key : string) :
  k <> key -> row_get (delete k row) key = row_get row key.
Proof. intros H. unfold row_get, dict_get. rewrite lookup_delete_ne; auto. Qed.

(** X8: columns other than "Full Name", "Name", "Surname" and "Level" are
    not read: adding, changing or removing one leaves the outcome of the
    row as it was. *)
Theorem build_row_ignores_other_columns
    (row : gmap string pyval) (k : string) (v : pyval) :
  k <> "Full Name" -> k <> "Name" -> k <> "Surname" -> k <> "Level" ->
  build_row (<[k := v]> row) = build_row row
  /\ build_row (delete k row) = build_row row.
Proof.
  intros H1 H2 H3 H4. unfold build_row.
  rewrite !row_get_insert_ne, !row_get_delete_ne by assumption. auto.
Qed.

Lemma build_row_ignores_other_columns_witness :
  build_row (<["Age" := PyStr "9"]> Samples.jane) = build_row Samples.jane
  /\ build_row (delete "Age" Samples.jane) = build_row Samples.jane.
Proof.
  apply (build_row_ignores_other_columns Samples.jane "Age" (PyStr "9"));
    discriminate.
Defined.

(** X9: the level never decides admission: whatever is written into, or
    removed from, the "Level" column, a rejected row stays rejected and an
    accepted row stays accepted. *)
Theorem level_never_rejects (row : gmap string pyval) (v : pyval) :
  (rejected (<["Level" := v]> row) <-> rejected row)
  /\ (rejected (delete "Level" row) <-> rejected row).
Proof.
  destruct (parse_name_total (row_get row "Full Name") (row_get row "Name")
              (row_get row "Surname")) as ([first last] & Hp).
  pose proof (admission row first last Hp) as [Hr _].
  split.
  - assert (parse_name (row_get (<["Level" := v]> row) "Full Name")
              (row_get (<["Level" := v]> row) "Name")
              (row_get (<["Level" := v]> row) "Surname") = Ok (first, last)) as Hp'.
    { rewrite !row_get_insert_ne by discriminate. exact Hp. }
    pose proof (admission _ first last Hp') as [Hr' _]. rewrite Hr, Hr'. tauto.
  - assert (parse_name (row_get (delete "Level" row) "Full Name")
              (row_get (delete "Level" row) "Name")
              (row_get (delete "Level" row) "Surname") = Ok (first, last)) as Hp'.
    { rewrite !row_get_delete_ne by discriminate. exact Hp. }
    pose proof (admission _ first last Hp') as [Hr' _]. rewrite Hr, Hr'. tauto.
Qed.

(** X10: a row whose given name and surname are both present and not
    empty, whose trimmed given name is not "Unknown" and whose trimmed
    surname is not empty, is accepted whatever its full name says; its
    record carries the trimmed given name and surname, and the address
    made from them. *)
Theorem given_and_surname_accepted (row : gmap string pyval) (g l : string) :
  row_get row "Name" = PyStr g -> row_get row "Surname" = PyStr l ->
  g <> "" -> l <> "" ->
  Str.strip g <> "Unknown" -> Str.strip l <> "" ->
  exists r : record,
    accepted row r
    /\ field r "firstName" = Some (Str.strip g)
    /\ field r "lastName" = Some (Str.strip l)
    /\ field r "parentEmail"
       = Some (generate_parent_email (Str.strip g) (Str.strip l)).
Proof.
  intros Hn Hs Hg Hl Hu He.
  assert (parse_name (row_get row "Full Name") (row_get row "Name")
            (row_get row "Surname") = Ok (Str.strip g, Str.strip l)) as Hp.
  { rewrite Hn, Hs. apply parse_name_both; assumption. }
  destruct (admission row _ _ Hp) as [_ Ha].
  destruct (proj2 Ha (conj Hu He)) as (r & Hr).
  exists r. split; [exact Hr|].
  apply accepted_inv in Hr as (f & l' & lv & st & Hp' & _ & _ & _ & _ & ->).
  rewrite Hp in Hp'. injection Hp' as <- <-. repeat split.
Qed.

Lemma given_and_surname_accepted_witness :
  exists r : record,
    accepted Samples.jane r
    /\ field r "firstName" = Some "Jane"
    /\ field r "lastName" = Some "Doe"
    /\ field r "parentEmail" = Some "jane.doe@placeholder.com".
Proof.
  apply (given_and_surname_accepted Samples.jane "Jane" "Doe");
    solve [vm_compute; reflexivity | discriminate].
Defined.

(** X11: the first name of a written record is empty only for a row
    whose given name is not empty but made of whitespace only, next to a
    surname that is not empty: no other path writes an empty first
    name. *)
Theorem empty_first_name_origin (row : gmap string pyval) (r : record) :
  accepted row r ->
  field r "firstName" = Some "" ->
  exists g l : string,
    row_get row "Name" = PyStr g /\ row_get row "Surname" = PyStr l
    /\ g <> "" /\ l <> "" /\ Str.strip g = "".
Proof.
  intros Ha Hf.
  apply accepted_inv in Ha as (f & l & lv & st & Hp & _ & _ & _ & _ & ->).
  injection Hf as ->.
  destruct (truthy (row_get row "Name") && truthy (row_get row "Surname")) eqn:H.
  - apply andb_true_iff in H as [Hg Hl].
    destruct (row_get row "Name") as [|g]; [discriminate|].
    destruct (row_get row "Surname") as [|l0]; [discriminate|].
    apply truthy_str in Hg, Hl. rewrite parse_name_both in Hp by assumption.
    injection Hp as Hs _. exists g, l0. auto.
  - exfalso.
    destruct (parse_name_full_cases (row_get row "Full Name") _ _ H)
      as [E | (f & t & rest & _ & Hs & E)]; rewrite E in Hp;
      [discriminate|].
    injection Hp as Ht0 _.
    pose proof (split_tokens f) as Ht. rewrite Hs in Ht.
    apply Forall_cons in Ht as [[Hne _] _]. contradiction.
Qed.

Lemma empty_first_name_origin_witness :
  exists g l : string,
    row_get Samples.blank_given "Name" = PyStr g
    /\ row_get Samples.blank_given "Surname" = PyStr l
    /\ g <> "" /\ l <> "" /\ Str.strip g = "".
Proof.
  apply (empty_first_name_origin Samples.blank_given
           (output_row "" "Doe" ".doe@placeholder.com" (PyStr "Level 2") 400
                       "ACTIVE")).
  - eexists. split; vm_compute; reflexivity.
  - reflexivity.
Defined.

End Admission.

(** ** Normalised levels and their fees *)

Section NormalisedLevels.
Import StrFacts.

Lemma normalize_level_cases (level : pyval) (t : string) :
  normalize_level level = Ok (PyStr t) ->
  exists s : string,
    level = PyStr s
    /\ ((exists k, level_map !! k = Some t /\ k = Str.lower (Str.strip s))
        \/ (level_map !! Str.lower (Str.strip s) = None /\ t = Str.strip s)).
Proof.
  intros H. destruct level as [|s]; [discriminate|]. exists s.
  split; [reflexivity|]. rewrite normalize_level_str in H.
  destruct (String.eqb s ""); [discriminate|].
  destruct (Str.elem (Str.lower s) _); [discriminate|].
  injection H as H. unfold dict_get in H.
  destruct (level_map !! Str.lower (Str.strip s)) as [v|] eqn:Hk; simpl in H.
  - subst v. left. eauto.
  - right. auto.
Qed.

(** X12: a level string [normalize_level] returns never starts or ends
    with whitespace. *)
Theorem normalize_level_stripped (level : pyval) (t : string) :
  normalize_level level = Ok (PyStr t) -> Str.strip t = t.
Proof.
  intros H. apply normalize_level_cases in H
    as (s & _ & [(k & Hk & _) | (_ & ->)]).
  - apply level_map_values in Hk. simpl in Hk.
    repeat (destruct Hk as [<- | Hk]; [reflexivity|]). destruct Hk.
  - apply strip_idem.
Qed.

Lemma normalize_level_stripped_witness :
  Str.strip "Advanced Squad" = "Advanced Squad".
Proof.
  apply (normalize_level_stripped (PyStr "  Advanced Squad ")). reflexivity.
Defined.

(** X13: an alias is recognised whatever its letter case and the
    whitespace around it: a raw level whose trimmed, lowercased form is a
    key of the alias table is normalised to the spelling the table gives
    for that key. *)
Theorem normalize_level_alias (s v : string) :
  level_map !! Str.lower (Str.strip s) = Some v ->
  normalize_level (PyStr s) = Ok (PyStr v).
Proof.
  intros Hk. rewrite normalize_level_str.
  destruct (String.eqb_spec s "") as [->|_]; [discriminate Hk|].
  assert (Str.elem (Str.lower s) ["inactive"; "none"; ""] = false) as ->.
  { apply elem_false. intros [E | [E | [E | []]]];
      rewrite lower_strip, <- E in Hk; discriminate Hk. }
  unfold dict_get. rewrite Hk. reflexivity.
Qed.

Lemma normalize_level_alias_witness :
  normalize_level (PyStr "  pRE LeVeL 1 ") = Ok (PyStr "Pre level 1").
Proof.
  apply (normalize_level_alias "  pRE LeVeL 1 " "Pre level 1").
  vm_compute. reflexivity.
Defined.

(** X14: a level string [normalize_level] returns is in the table's
    spelling whenever it reads as an alias: if its lowercased form is a key
    of the alias table, it is that key's value. So no bare digit "1".."5"
    and no lowercase alias ever comes out. *)
Theorem normalize_level_canonical (level : pyval) (t : string) :
  normalize_level level = Ok (PyStr t) ->
  (forall v : string, level_map !! Str.lower t = Some v -> v = t)
  /\ ~ In t ["1"; "2"; "3"; "4"; "5"].
Proof.
  intros H.
  assert (forall v : string, level_map !! Str.lower t = Some v -> v = t) as Hc.
  { apply normalize_level_cases in H
      as (s & _ & [(k & Hk & _) | (Hnone & ->)]).
    - apply level_map_values in Hk. simpl in Hk.
      repeat (destruct Hk as [<- | Hk];
              [intros v Hv; vm_compute in Hv; congruence|]).
      destruct Hk.
    - intros v Hv. congruence. }
  split; [exact Hc|].
  intros Hin. simpl in Hin.
  repeat (destruct Hin as [<- | Hin];
          [specialize (Hc _ eq_refl); discriminate Hc|]).
  destruct Hin.
Qed.

Lemma normalize_level_canonical_witness :
  (forall v : string, level_map !! Str.lower "Level 4" = Some v -> v = "Level 4")
  /\ ~ In ("Level 4" : string) ["1"; "2"; "3"; "4"; "5"].
Proof.
  apply (normalize_level_canonical (PyStr " 4 ") "Level 4"). reflexivity.
Defined.

Lemma LEVEL_FEES_values (k : string) (fee : Z) :
  LEVEL_FEES !! k = Some fee -> In fee [250; 300; 350; 400; 450; 500; 550].
Proof.
  intros H. apply elem_of_list_to_map_2, list_elem_of_In in H. simpl in H.
  repeat (destruct H as [[= <- <-] | H]; [simpl; tauto|]). destruct H.
Qed.

Lemma fee_of_truthy_level (level : pyval) :
  truthy level = true ->
  In (get_monthly_fee level) [250; 300; 350; 400; 450; 500; 550].
Proof.
  intros E. unfold get_monthly_fee. rewrite E. simpl.
  destruct level as [|s]; [discriminate|].
  unfold dict_get. destruct (LEVEL_FEES !! s) as [fee|] eqn:Hk.
  - exact (LEVEL_FEES_values _ _ Hk).
  - simpl. tauto.
Qed.

(** X15: the monthly fee is 0 for an absent or empty level and one of
    250, 300, 350, 400, 450, 500, 550 for every other string: never
    negative, never above 550, never between 0 and 250. *)
Theorem get_monthly_fee_amounts (level : pyval) :
  (truthy level = false /\ get_monthly_fee level = 0)
  \/ (truthy level = true
      /\ In (get_monthly_fee level) [250; 300; 350; 400; 450; 500; 550]).
Proof.
  destruct (truthy level) eqn:E.
  - right. split; [reflexivity|]. apply fee_of_truthy_level, E.
  - left. split; [reflexivity|]. unfold get_monthly_fee. rewrite E. reflexivity.
Qed.

End NormalisedLevels.

(** ** Fields that go together, and the run as a whole *)

Section WholeRun.
Import StrFacts.

(** X16: in the record of an accepted row the status, the level and the
    fee agree as follows. A record with status "ACTIVE" carries the
    normalised level, which is a non-empty string, and a fee of at least
    250. A row whose normalised level is absent or empty gets status
    "INACTIVE", level "R" and monthly fee "R0". *)
Theorem status_level_fee (row : gmap string pyval) (r : record) :
  accepted row r ->
  exists level : pyval,
    normalize_level (row_get row "Level") = Ok level
    /\ field r "monthlyFee" = Some ("R" +:+ Str.of_int (get_monthly_fee level))
    /\ (field r "status" = Some "ACTIVE" ->
        exists s : string,
          level = PyStr s /\ s <> "" /\ field r "level" = Some s
          /\ 250 <= get_monthly_fee level)
    /\ (level = PyNone \/ level = PyStr "" ->
        field r "status" = Some "INACTIVE"
        /\ field r "level" = Some "R"
        /\ field r "monthlyFee" = Some "R0").
Proof.
  intros H. apply accepted_inv in H
    as (f & l & lv & st & _ & Hlv & Hst & _ & _ & ->).
  exists lv. split; [exact Hlv|]. split; [reflexivity|]. split.
  - intros [= ->]. destruct (truthy lv) eqn:Ht.
    + destruct lv as [|s]; [discriminate|]. exists s.
      split; [reflexivity|]. split; [apply truthy_str, Ht|]. split.
      * change (Some (level_or_R (PyStr s)) = Some s).
        unfold level_or_R. rewrite Ht. reflexivity.
      * pose proof (fee_of_truthy_level (PyStr s) Ht) as Hin.
        simpl in Hin. lia.
    + unfold derive_status in Hst. rewrite Ht in Hst. discriminate Hst.
  - intros [-> | ->]; injection Hst as <-; repeat split.
Qed.

Lemma status_level_fee_witness :
  exists level : pyval,
    normalize_level (row_get Samples.bongani "Level") = Ok level
    /\ (level = PyNone \/ level = PyStr "")
    /\ field (output_row "Bongani" "Bongani" "bongani.bongani@placeholder.com"
                PyNone 0 "INACTIVE") "monthlyFee" = Some "R0".
Proof.
  destruct (status_level_fee Samples.bongani
              (output_row "Bongani" "Bongani" "bongani.bongani@placeholder.com"
                 PyNone 0 "INACTIVE"))
    as (level & Hlv & _ & _ & Hin).
  { eexists. split; vm_compute; reflexivity. }
  exists level. split; [exact Hlv|].
  assert (level = PyNone) as -> by (vm_compute in Hlv; congruence).
  split; [left; reflexivity|]. apply Hin. left. reflexivity.
Defined.

Lemma written_record_accepted (row : gmap string pyval) (r : record) :
  written_record row = Some r <-> accepted row r.
Proof.
  unfold written_record, accepted. split.
  - destruct (build_row row) as [[o|]|]; try discriminate.
    destruct (writerow output_columns o) as [w|] eqn:E; try discriminate.
    intros [= <-]. eauto.
  - intros (o & -> & ->). reflexivity.
Qed.

Lemma written_record_rejected (row : gmap string pyval) :
  written_record row = None <-> rejected row.
Proof.
  unfold written_record, rejected.
  destruct (build_row_eq row) as (f & l & lv & st & _ & _ & _ & ->).
  destruct (_ || _); [tauto|]. rewrite writerow_output_row.
  split; discriminate.
Qed.

Lemma loop_body_eq (st : conv_state) (row : gmap string pyval) :
  loop_body st row =
  Ok (match written_record row with
      | Some written =>
          {| outfile := outfile st ++ [written];
             rows_converted := S (rows_converted st);
             rows_skipped := rows_skipped st |}
      | None =>
          {| outfile := outfile st;
             rows_converted := rows_converted st;
             rows_skipped := S (rows_skipped st) |}
      end).
Proof.
  unfold loop_body, written_record.
  destruct (build_row_eq row) as (f & l & lv & s & _ & _ & _ & ->).
  cbn [mbind result_bind bind].
  destruct (_ || _); [reflexivity|]. rewrite writerow_output_row. reflexivity.
Qed.

Lemma length_omap_le {A B : Type} (f : A -> option B) (l : list A) :
  (length (omap f l) <= length l)%nat.
Proof.
  induction l as [|x l IH]; [reflexivity|]. cbn [omap list_omap length].
  destruct (f x); cbn [length]; lia.
Qed.

Lemma for_rows_eq (reader : list (gmap string pyval)) :
  forall st : conv_state,
    for_rows st reader =
    Ok {| outfile := outfile st ++ omap written_record reader;
          rows_converted :=
            (rows_converted st + length (omap written_record reader))%nat;
          rows_skipped :=
            (rows_skipped st
             + (length reader - length (omap written_record reader)))%nat |}.
Proof.
  induction reader as [|row rest IH]; intros st.
  - simpl. rewrite app_nil_r, !Nat.add_0_r. destruct st; reflexivity.
  - cbn [for_rows]. rewrite loop_body_eq. cbn [mbind result_bind bind].
    rewrite IH. cbn [omap list_omap].
    pose proof (length_omap_le written_record rest) as Hle.
    destruct (written_record row) as [w|];
      cbn [outfile rows_converted rows_skipped length];
      f_equal; f_equal; try (rewrite <- app_assoc; reflexivity); lia.
Qed.

(** X17: a run never raises; it writes, in the order of the input, the
    records of exactly the accepted rows, and its two counters are the
    number of those records and the number of the other rows. *)
Theorem convert_csv_result (reader : list (gmap string pyval)) :
  convert_csv reader =
  Ok {| outfile := omap written_record reader;
        rows_converted := length (omap written_record reader);
        rows_skipped := length reader - length (omap written_record reader) |}
  /\ (forall row r, written_record row = Some r <-> accepted row r)
  /\ (forall row, written_record row = None <-> rejected row).
Proof.
  split; [|split].
  - unfold convert_csv. rewrite for_rows_eq. reflexivity.
  - apply written_record_accepted.
  - apply written_record_rejected.
Qed.

(** X18: rows are converted one by one, with nothing carried from one row
    to the next but the counters: converting two lists of rows one after
    the other gives the records of the first run followed by those of the
    second, and counters that are the sums. *)
Theorem convert_csv_app (r1 r2 : list (gmap string pyval)) (s1 s2 : conv_state) :
  convert_csv r1 = Ok s1 -> convert_csv r2 = Ok s2 ->
  convert_csv (r1 ++ r2) =
  Ok {| outfile := outfile s1 ++ outfile s2;
        rows_converted := rows_converted s1 + rows_converted s2;
        rows_skipped := rows_skipped s1 + rows_skipped s2 |}.
Proof.
  unfold convert_csv. rewrite !for_rows_eq. intros [= <-] [= <-].
  cbn [outfile rows_converted rows_skipped conv_init].
  rewrite omap_app, !length_app.
  pose proof (length_omap_le written_record r1).
  pose proof (length_omap_le written_record r2).
  f_equal. f_equal; simpl; lia.
Qed.

Lemma convert_csv_app_witness :
  convert_csv ([Samples.jane; Samples.no_names] ++ [Samples.bongani]) =
  Ok {| outfile :=
          [output_row "Jane" "Doe" "jane.doe@placeholder.com"
             (PyStr "Level 2") 400 "ACTIVE"]
          ++ [output_row "Bongani" "Bongani" "bongani.bongani@placeholder.com"
                PyNone 0 "INACTIVE"];
        rows_converted := 1 + 1;
        rows_skipped := 1 + 0 |}.
Proof.
  apply (convert_csv_app [Samples.jane; Samples.no_names] [Samples.bongani]
           {| outfile := [output_row "Jane" "Doe" "jane.doe@placeholder.com"
                            (PyStr "Level 2") 400 "ACTIVE"];
              rows_converted := 1; rows_skipped := 1 |}
           {| outfile := [output_row "Bongani" "Bongani"
                            "bongani.bongani@placeholder.com" PyNone 0 "INACTIVE"];
              rows_converted := 1; rows_skipped := 0 |});
    vm_compute; reflexivity.
Defined.

End WholeRun.
